(** * offchain-sdk: the HTTP server wrapper and the worker-pool configuration

    A shallow embedding of the two Go packages
    - [server] (type [Server] with [New], [RegisterHandler],
      [RegisterMiddleware], [applyMiddlewares], [Start], [Stop]) and
    - [worker] ([PoolConfig], [DefaultPoolConfig], [ResizerFromString]),
    followed by the properties of them that are established here.

    Conventions.  A Go call that may panic returns a [Result]; a method that
    mutates its receiver takes the [Server] and returns the new one; what a
    method does to the outside (log calls on the injected logger, requests to
    the network server) is returned as a chronological list of [Effect]s.
    What the environment decides (the clock, what the network server answers)
    is an argument. *)

From Stdlib Require Import ZArith String List Lia.
From stdpp Require Import base option list gmap strings pretty.

Local Open Scope string_scope.
Local Open Scope Z_scope.
Local Open Scope list_scope.

(** ** The Go runtime: panics *)

(** The value a panic carries. *)
Inductive PanicValue : Type :=
| NilPointerDereference                (* runtime error: invalid memory address or nil pointer dereference *)
| IndexOutOfRange (i : nat) (len : nat) (* runtime error: index out of range *)
| PanicString (msg : string).          (* panic("...") *)

(** How a call ends: it returns a value or it panics. *)
Inductive Result (A : Type) : Type :=
| Returned (a : A)
| Panicked (v : PanicValue).

Arguments Returned {A} a.
Arguments Panicked {A} v.

(** ** Package worker *)

Module worker.

(** PoolConfig is the configuration for a pool.  Go's [int] fields are [Z]. *)
Record PoolConfig : Type := mkPoolConfig {
  Name : string;
  PrometheusPrefix : string;
  MinWorkers : Z;
  MaxWorkers : Z;
  ResizingStrategy : string;
  MaxQueuedJobs : Z
}.

(** The zero value of the struct: what a field holds when a composite
    literal does not set it. *)
Definition PoolConfig_zero : PoolConfig :=
  {| Name := ""; PrometheusPrefix := ""; MinWorkers := 0; MaxWorkers := 0;
     ResizingStrategy := ""; MaxQueuedJobs := 0 |}.

(** DefaultPoolConfig is the default configuration for a pool. *)
Definition DefaultPoolConfig : PoolConfig :=
  {| Name := "default";
     PrometheusPrefix := "default";
     MinWorkers := 4;
     MaxWorkers := 32;
     ResizingStrategy := "balanced";
     MaxQueuedJobs := 100 |}.

Section Resizer.

(** The resizing strategies belong to the pond library: the type
    [pond.ResizingStrategy] and what [pond.Eager()], [pond.Lazy()] and
    [pond.Balanced()] return are taken as given. *)
Context {pond_ResizingStrategy : Type}.
Variables pond_Eager pond_Lazy pond_Balanced : pond_ResizingStrategy.

(** ResizerFromString returns a pond resizer for the given name.  The
    [switch] compares the strings byte by byte, case by case in order. *)
Definition ResizerFromString (name : string) : Result pond_ResizingStrategy :=
  if String.eqb name "eager" then Returned pond_Eager
  else if String.eqb name "lazy" then Returned pond_Lazy
  else if String.eqb name "balanced" then Returned pond_Balanced
  else Panicked (PanicString "invalid resizer name").

End Resizer.




End worker.

(** ** Package server *)

Module server.

(** *** What the package imports *)

(** [time.Duration] counts nanoseconds; so does a point in time here. *)
Definition time_Second : Z := 1000000000.

(** Go's [error] values.  The interface value [nil] is [None] of
    [option error]. *)
Inductive error : Type :=
| ErrServerClosed                        (* http.ErrServerClosed *)
| DeadlineExceeded                       (* context.DeadlineExceeded *)
| ErrorString (msg : string)             (* errors.New(msg) *)
| Wrapped (msg : string) (cause : error). (* fmt.Errorf("msg: %w", cause) *)

#[global] Instance error_eq_dec : EqDecision error.
Proof. solve_decision. Defined.

(** [errors.Is] on a non-nil error: the error or one it wraps is the
    target. *)
Fixpoint errors_Is_chain (e target : error) : bool :=
  bool_decide (e = target)
  || match e with
     | Wrapped _ cause => errors_Is_chain cause target
     | _ => false
     end.

(** [errors.Is(err, target)]: with a nil on either side it is [err == target]. *)
Definition errors_Is (err target : option error) : bool :=
  match err, target with
  | Some e, Some t => errors_Is_chain e t
  | None, None => true
  | _, _ => false
  end.

(** [context.Context], as far as [Stop] uses it: its deadline. *)
Record Context : Type := { Deadline : option Z }.

Definition context_Background : Context := {| Deadline := None |}.

(** [context.WithTimeout(parent, d)] called when the clock reads [now]: the
    deadline is [now + d], unless the parent's is earlier. *)
Definition context_WithTimeout (now : Z) (parent : Context) (d : Z) : Context :=
  match Deadline parent with
  | Some t => if t <? now + d then parent else {| Deadline := Some (now + d) |}
  | None => {| Deadline := Some (now + d) |}
  end.

(** The request, as far as routing reads it. *)
Record Request : Type := { URL_Path : string }.

(** Modelled from the spec: the [Config] struct of the package, of which the
    source shows the use only ([cfg.HTTP.Host], [cfg.HTTP.Port]): host
    (string) and port (integer). *)
Record HTTPConfig : Type := { Host : string; Port : Z }.

Record Config : Type := { HTTP : HTTPConfig }.

Section Package.

(** [W] is everything a handler can act on (the response writer and any
    side channel); [Logger] is the injected [log.Logger]. *)
Context {W Logger : Type}.

(** [http.Handler]: [ServeHTTP(w, r)], passing the state along. *)
Definition HttpHandler : Type := Request -> W -> W.

(** [http.ServeMux], as the table of its registrations: which handler is
    registered under which pattern. *)
Record ServeMux : Type := { mux_m : gmap string HttpHandler }.

Definition http_NewServeMux : ServeMux := {| mux_m := ∅ |}.

(** [ServeMux.Handle].  It panics on an empty pattern, on a nil handler
    and on a pattern that is registered already, and it makes its checks
    before it writes; otherwise it adds the entry.  These are the checks
    every version of the mux makes.  The later versions refuse more (a
    pattern they cannot parse, a pattern in conflict with another one) and
    word the panic differently: a registration that returns here need not
    return there, and nothing below relies on the wording. *)
Definition ServeMux_Handle (pattern : string) (handler : option HttpHandler)
    (mux : ServeMux) : Result ServeMux :=
  if String.eqb pattern "" then Panicked (PanicString "http: invalid pattern")
  else match handler with
       | None => Panicked (PanicString "http: nil handler")
       | Some h =>
           match mux_m mux !! pattern with
           | Some _ => Panicked (PanicString ("http: multiple registrations for " +:+ pattern))
           | None => Returned {| mux_m := <[pattern := h]> (mux_m mux) |}
           end
       end.

(** What the mux does with a path that no pattern matches exactly (subtree
    patterns, redirects, the 404 page) is left open. *)
Variable mux_unmatched : ServeMux -> HttpHandler.

(** The handler registered under exactly [path].  For a clean path without
    host, method or wildcard, such as "/ping", on a mux whose other patterns
    do not compete for it, this is the handler the mux dispatches to; what
    the mux does with other request paths (cleaning, redirects, subtree and
    host patterns) is not decided here. *)
Definition ServeMux_match (mux : ServeMux) (path : string) : option HttpHandler :=
  mux_m mux !! path.

(** [ServeMux.ServeHTTP], with the same reach as [ServeMux_match]. *)
Definition ServeMux_ServeHTTP (mux : ServeMux) : HttpHandler :=
  fun r w =>
    match ServeMux_match mux (URL_Path r) with
    | Some h => h r w
    | None => mux_unmatched mux r w
    end.

(** [http.Server], the fields [Start] sets ([Server_Handler] is its field
    [Handler]). *)
Record HttpServer : Type := {
  Addr : string;
  Server_Handler : HttpHandler;
  ReadHeaderTimeout : Z
}.

(** A key-value argument of a log call. *)
Inductive LogValue : Type :=
| VString (s : string)
| VError (err : option error).

Inductive LogLevel : Type := LevelInfo | LevelError.

(** What a method does to the outside. *)
Inductive Effect : Type :=
| Log (l : Logger) (lvl : LogLevel) (msg : string) (kv : list (string * LogValue))
| ShutdownCalled (server : HttpServer) (ctx : Context)   (* srv.Shutdown(ctx) on a live server *)
| ContextCancelled (ctx : Context).                       (* cancel() *)

(** What the environment decides during one call of [Stop]: the clock at
    the call and what a live network server answers to [Shutdown]. *)
Record Env : Type := { Now : Z; ShutdownAnswer : option error }.

(** [http.Server.Shutdown(ctx)].  Its first statement reads a field of
    the receiver, so a nil receiver is a nil pointer dereference. *)
Definition http_Server_Shutdown (env : Env) (srv : option HttpServer)
    (ctx : Context) : Result (option error) * list Effect :=
  match srv with
  | None => (Panicked NilPointerDereference, [])
  | Some server => (Returned (ShutdownAnswer env), [ShutdownCalled server ctx])
  end.

(** *** The package itself *)

(** DefaultReadHeaderTimeout is the default timeout for reading the header. *)
Definition DefaultReadHeaderTimeout : Z := 10 * time_Second.

(** Handler represents an HTTP handler with its path.  The field [Handler]
    is an interface value and may be nil ([None]). *)
Record Handler : Type := { Path : string; Handler_Handler : option HttpHandler }.

(** Middleware defines a function that wraps an HTTP handler.  A func
    value may be nil: that is [None].  One that is not nil is taken to
    return a handler when it is applied. *)
Definition Middleware : Type := option (HttpHandler -> HttpHandler).

(** Server represents an HTTP server with configurable middleware and
    handlers.  [cfg] is a pointer and may be nil ([None]); [srv] is nil
    ([None]) until [Start] sets it; [closer] is the [sync.Once], that is its
    flag "done". *)
Record Server : Type := {
  cfg : option Config;
  logger : Logger;
  mux : ServeMux;
  srv : option HttpServer;
  closer : bool;
  middlewares : list Middleware
}.

(** New creates and returns a new Server instance. *)
Definition New (cfg0 : option Config) (logger0 : Logger) (middlewares0 : list Middleware)
    : Server :=
  {| cfg := cfg0; logger := logger0; mux := http_NewServeMux; srv := None;
     closer := false; middlewares := middlewares0 |}.

(** RegisterHandler adds a handler to the server for the specified path. *)
Definition RegisterHandler (h : Handler) (s : Server) : Result Server :=
  match ServeMux_Handle (Path h) (Handler_Handler h) (mux s) with
  | Returned mux' =>
      Returned {| cfg := cfg s; logger := logger s; mux := mux'; srv := srv s;
                  closer := closer s; middlewares := middlewares s |}
  | Panicked v => Panicked v
  end.

(** The server as a call of [RegisterHandler] leaves it.  The method writes
    nothing itself and the mux makes its checks before it writes, so after a
    panic the server is the one before the call. *)
Definition RegisterHandler_leaves (h : Handler) (s : Server) : Server :=
  match RegisterHandler h s with
  | Returned s1 => s1
  | Panicked _ => s
  end.

(** RegisterMiddleware adds a middleware to the server.  It does not look
    at the value: a nil one is appended like any other. *)
Definition RegisterMiddleware (m : Middleware) (s : Server) : Server :=
  {| cfg := cfg s; logger := logger s; mux := mux s; srv := srv s;
     closer := closer s; middlewares := middlewares s ++ [m] |}.

(** The loop of [applyMiddlewares]: [n] is [i + 1], so [n = 0] is the exit
    [i < 0]; [mws !! i] is the indexing [s.middlewares[i]], which panics out
    of range; the call of a nil func panics. *)
Fixpoint applyMiddlewares_loop (mws : list Middleware) (n : nat) (h : HttpHandler)
    : Result HttpHandler :=
  match n with
  | O => Returned h
  | S i =>
      match mws !! i with
      | Some (Some m) => applyMiddlewares_loop mws i (m h)
      | Some None => Panicked NilPointerDereference
      | None => Panicked (IndexOutOfRange i (length mws))
      end
  end.

(** applyMiddlewares applies the middlewares to the server's handler in
    reverse order: [h] starts as the mux and [i] runs from
    [len(s.middlewares) - 1] down to 0. *)
Definition applyMiddlewares (s : Server) : Result HttpHandler :=
  applyMiddlewares_loop (middlewares s) (length (middlewares s))
    (ServeMux_ServeHTTP (mux s)).

(** The guarded function of [Stop]: the shutdown sequence.  [cancel] is
    deferred, so it runs on a panic as well. *)
Definition Stop_body (env : Env) (s : Server) : Result unit * list Effect :=
  let ctx := context_WithTimeout (Now env) context_Background (5 * time_Second) in
  match http_Server_Shutdown env (srv s) ctx with
  | (Returned (Some err), eff) =>
      (Returned tt,
       eff ++ [Log (logger s) LevelError "HTTP server shutdown error" [("error", VError (Some err))];
               ContextCancelled ctx])
  | (Returned None, eff) =>
      (Returned tt,
       eff ++ [Log (logger s) LevelInfo "HTTP server gracefully stopped" [];
               ContextCancelled ctx])
  | (Panicked v, eff) => (Panicked v, eff ++ [ContextCancelled ctx])
  end.

(** The server with the flag of [s.closer] set. *)
Definition closer_done (s : Server) : Server :=
  {| cfg := cfg s; logger := logger s; mux := mux s; srv := srv s;
     closer := true; middlewares := middlewares s |}.

(** Stop gracefully shuts down the server.  [s.closer.Do(f)] runs [f] when
    the flag is not set and sets it when [f] has returned or panicked; with
    the flag set it does nothing. *)
Definition Stop (env : Env) (s : Server) : Result unit * Server * list Effect :=
  if closer s then (Returned tt, s, [])
  else
    let '(r, eff) := Stop_body env s in
    (r, closer_done s, eff).

(** [Stop] called again and again, once for each element of [envs]: how the
    calls ended, the server after the last one, and everything they did to
    the outside. *)
Fixpoint Stop_repeatedly (envs : list Env) (s : Server)
    : list (Result unit) * Server * list Effect :=
  match envs with
  | [] => ([], s, [])
  | env :: rest =>
      let '(r, s1, eff1) := Stop env s in
      let '(rs, s2, eff2) := Stop_repeatedly rest s1 in
      (r :: rs, s2, eff1 ++ eff2)
  end.

(** How many times the shutdown sequence ran: each run calls its deferred
    [cancel] exactly once. *)
Fixpoint shutdown_sequences (eff : list Effect) : nat :=
  match eff with
  | [] => O
  | ContextCancelled _ :: rest => S (shutdown_sequences rest)
  | _ :: rest => shutdown_sequences rest
  end.

(** The first statement of [Start]: it sets [s.srv].  The fields of the
    literal are evaluated in order: the address, which reads through
    [s.cfg], then the handler. *)
Definition Start_setup (s : Server) : Result Server :=
  match cfg s with
  | None => Panicked NilPointerDereference
  | Some c =>
      match applyMiddlewares s with
      | Returned h =>
          Returned {| cfg := cfg s; logger := logger s; mux := mux s;
                      srv := Some {| Addr := Host (HTTP c) +:+ ":" +:+ pretty (Port (HTTP c));
                                     Server_Handler := h;
                                     ReadHeaderTimeout := DefaultReadHeaderTimeout |};
                      closer := closer s; middlewares := middlewares s |}
      | Panicked v => Panicked v
      end
  end.

(** *** Start and the goroutines around it

    [Start] runs in its caller's goroutine and launches the accept loop in a
    second one; the context, which is not nil, is cancelled from outside and
    [Stop] may be called from anywhere.  One [Label] is one atomic step of
    one of them; a schedule is a list of labels. *)

(** Where the goroutine of [Start] stands. *)
Inductive MainPc : Type :=
| MainEntry       (* Start has not run its first statement *)
| MainWaiting     (* at <-ctx.Done() *)
| MainReturned.   (* Start has returned *)

(** Where the goroutine of the accept loop stands. *)
Inductive AcceptPc : Type :=
| AcceptUnborn    (* the go statement has not run *)
| AcceptLaunched  (* before the log line "Starting HTTP server" *)
| AcceptServing   (* inside s.srv.ListenAndServe() *)
| AcceptExited.   (* the function literal has returned *)

Record System : Type := {
  server : Server;
  main : MainPc;
  accept : AcceptPc;
  ctx_done : bool;          (* ctx.Done() is closed *)
  effects : list Effect;    (* everything done to the outside so far *)
  crashed : bool            (* a goroutine panicked: the process is gone *)
}.

Inductive Label : Type :=
| StepMain (env : Env)               (* the goroutine of Start moves; env is for its call of Stop *)
| StepAccept (err : option error)    (* the accept goroutine moves; err is what ListenAndServe returns *)
| StepCancel                         (* the context is cancelled *)
| StepStop (env : Env).              (* some other goroutine calls Stop *)

Definition boot (s : Server) : System :=
  {| server := s; main := MainEntry; accept := AcceptUnborn; ctx_done := false;
     effects := []; crashed := false |}.

(** A call of [Stop] by a goroutine that then stands at [pc]. *)
Definition call_Stop (env : Env) (pc : MainPc) (sys : System) : System :=
  let '(r, s', eff) := Stop env (server sys) in
  match r with
  | Returned _ =>
      {| server := s'; main := pc; accept := accept sys; ctx_done := ctx_done sys;
         effects := effects sys ++ eff; crashed := false |}
  | Panicked _ =>
      {| server := s'; main := main sys; accept := accept sys; ctx_done := ctx_done sys;
         effects := effects sys ++ eff; crashed := true |}
  end.

Definition crash (sys : System) : System :=
  {| server := server sys; main := main sys; accept := accept sys;
     ctx_done := ctx_done sys; effects := effects sys; crashed := true |}.

(** One step; [None] when the goroutine cannot move (it is blocked, it has
    ended, or the process has crashed). *)
Definition step (l : Label) (sys : System) : option System :=
  if crashed sys then None
  else
    match l with
    | StepCancel =>
        Some {| server := server sys; main := main sys; accept := accept sys;
                ctx_done := true; effects := effects sys; crashed := false |}
    | StepStop env => Some (call_Stop env (main sys) sys)
    | StepMain env =>
        match main sys with
        | MainEntry =>
            match Start_setup (server sys) with
            | Returned s' =>
                Some {| server := s'; main := MainWaiting; accept := AcceptLaunched;
                        ctx_done := ctx_done sys; effects := effects sys; crashed := false |}
            | Panicked _ => Some (crash sys)
            end
        | MainWaiting =>
            if ctx_done sys then Some (call_Stop env MainReturned sys) else None
        | MainReturned => None
        end
    | StepAccept err =>
        match accept sys, srv (server sys) with
        | AcceptLaunched, Some live =>
            Some {| server := server sys; main := main sys; accept := AcceptServing;
                    ctx_done := ctx_done sys;
                    effects := effects sys ++
                      [Log (logger (server sys)) LevelInfo "Starting HTTP server"
                           [("address", VString (Addr live))]];
                    crashed := false |}
        | AcceptServing, Some _ =>
            Some {| server := server sys; main := main sys; accept := AcceptExited;
                    ctx_done := ctx_done sys;
                    effects := effects sys ++
                      (if errors_Is err (Some ErrServerClosed) then []
                       else [Log (logger (server sys)) LevelError "HTTP server error"
                                 [("error", VError err)]]);
                    crashed := false |}
        | AcceptLaunched, None | AcceptServing, None => Some (crash sys)
        | AcceptUnborn, _ | AcceptExited, _ => None
        end
    end.

(** A schedule, step by step. *)
Fixpoint run (schedule : list Label) (sys : System) : option System :=
  match schedule with
  | [] => Some sys
  | l :: rest =>
      match step l sys with
      | Some sys' => run rest sys'
      | None => None
      end
  end.

End Package.

End server.

(** ** Fixtures

    Concrete servers on which the functions above are evaluated.  A handler
    acts on a trace of strings; a tracing middleware writes a line before it
    delegates and one after. *)

Module fixtures.

Import server.

Definition Trace : Type := list string.

Definition tracing_func (name : string) : @HttpHandler Trace -> @HttpHandler Trace :=
  fun next r w => next r (w ++ [name +:+ " sees the request"]) ++ [name +:+ " sees the response"].

Definition tracing (name : string) : @Middleware Trace := Some (tracing_func name).

Definition route (name : string) : @HttpHandler Trace :=
  fun _ w => w ++ [name +:+ " handles"].

Definition not_found : @ServeMux Trace -> @HttpHandler Trace :=
  fun _ _ w => w ++ ["404 page not found"].

Definition cfg0 : Config := {| HTTP := {| Host := "localhost"; Port := 8080 |} |}.

(** [New(cfg, logger)]: no route, no middleware, not started. *)
Definition fresh : @Server Trace string := New (Some cfg0) "logger" [].

Definition ping : Request := {| URL_Path := "/ping" |}.




Definition noon : Env := {| Now := 43200 * time_Second; ShutdownAnswer := None |}.

(** The same moment, with a network server that does not drain in time. *)
Definition noon_slow : Env :=
  {| Now := 43200 * time_Second; ShutdownAnswer := Some DeadlineExceeded |}.

(** Start, the accept loop logs its first line, the listener fails, the
    context is cancelled, Start wakes up. *)
Definition listener_fails : list Label :=
  [StepMain noon; StepAccept None;
   StepAccept (Some (ErrorString "listen tcp :8080: bind: address already in use"));
   StepCancel; StepMain noon].

(** The system after the first two steps of that schedule: the accept loop
    serves and Start waits. *)
Definition serving : @System Trace string :=
  match run not_found (take 2 listener_fails) (boot fresh) with
  | Some sys => sys
  | None => boot fresh
  end.

(** The system after the first three steps of that schedule: the listener
    has failed and Start waits. *)
Definition waiting : @System Trace string :=
  match run not_found (take 3 listener_fails) (boot fresh) with
  | Some sys => sys
  | None => boot fresh
  end.

End fixtures.

(** * Properties of package worker *)

Section WorkerProperties.

Import worker.

Context {pond_ResizingStrategy : Type}.
Variables pond_Eager pond_Lazy pond_Balanced : pond_ResizingStrategy.




Lemma ResizerFromString_default (name : string) :
  name <> "eager" -> name <> "lazy" -> name <> "balanced" ->
  ResizerFromString pond_Eager pond_Lazy pond_Balanced name
  = Panicked (PanicString "invalid resizer name").
Proof.
  intros He Hl Hb. unfold ResizerFromString.
  apply String.eqb_neq in He, Hl, Hb.
  now rewrite He, Hl, Hb.
Qed.

(** C5.  A strategy name outside {"eager", "lazy", "balanced"} makes
    [ResizerFromString] panic with "invalid resizer name"; in particular it
    returns no policy at all, neither a default nor a substitute. *)
Theorem ResizerFromString_unknown_name_panics (name : string) :
  ~ In name ["eager"; "lazy"; "balanced"] ->
  ResizerFromString pond_Eager pond_Lazy pond_Balanced name
  = Panicked (PanicString "invalid resizer name")
  /\ forall policy,
       ResizerFromString pond_Eager pond_Lazy pond_Balanced name <> Returned policy.
Proof.
  intros Hout.
  assert (ResizerFromString pond_Eager pond_Lazy pond_Balanced name
          = Panicked (PanicString "invalid resizer name")) as E.
  { apply ResizerFromString_default; intros ->; apply Hout; simpl; tauto. }
  split; [exact E|]. intros policy. rewrite E. discriminate.
Qed.


End WorkerProperties.

(** C5 at the name "bogus". *)
Lemma ResizerFromString_unknown_name_panics_witness :
  worker.ResizerFromString 1%nat 5%nat 3%nat "bogus"
    = Panicked (PanicString "invalid resizer name")
  /\ forall policy, worker.ResizerFromString 1%nat 5%nat 3%nat "bogus" <> Returned policy.
Proof.
  apply (ResizerFromString_unknown_name_panics 1%nat 5%nat 3%nat "bogus").
  simpl. intros [H|[H|[H|[]]]]; discriminate H.
Defined.


(** C6, as stated, fails: the five listed values are not the only defaults.
    The value returned differs from the zero-valued configuration with just
    those five fields set, because [PrometheusPrefix] is set as well. *)
Lemma DefaultPoolConfig_not_only_five_defaults :
  ~ (worker.DefaultPoolConfig
     = {| worker.Name := "default";
          worker.PrometheusPrefix := worker.PrometheusPrefix worker.PoolConfig_zero;
          worker.MinWorkers := 4;
          worker.MaxWorkers := 32;
          worker.ResizingStrategy := "balanced";
          worker.MaxQueuedJobs := 100 |}).
Proof. intros H. discriminate H. Qed.

(** C6, amended.  [DefaultPoolConfig] returns exactly Name = "default",
    PrometheusPrefix = "default", MinWorkers = 4, MaxWorkers = 32,
    ResizingStrategy = "balanced" and MaxQueuedJobs = 100: six defaults, one
    for every field of the struct. *)
Theorem DefaultPoolConfig_exact :
  worker.DefaultPoolConfig
  = worker.mkPoolConfig "default" "default" 4 32 "balanced" 100.
Proof. reflexivity. Qed.

(** C10.  [DefaultPoolConfig] sets [PrometheusPrefix] to "default", which
    is not the field's zero value. *)
Theorem DefaultPoolConfig_PrometheusPrefix :
  worker.PrometheusPrefix worker.DefaultPoolConfig = "default"
  /\ worker.PrometheusPrefix worker.DefaultPoolConfig
     <> worker.PrometheusPrefix worker.PoolConfig_zero.
Proof. split; [reflexivity | discriminate]. Qed.

(** * Properties of package server *)

Section ServerProperties.

Import server.

Context {W Logger : Type}.
Variable mux_unmatched : @ServeMux W -> @HttpHandler W.

Local Abbreviation Server := (@server.Server W Logger).
Local Abbreviation HttpHandler := (@server.HttpHandler W).
Local Abbreviation Middleware := (@server.Middleware W).
Local Abbreviation Effect := (@server.Effect W Logger).
Local Abbreviation System := (@server.System W Logger).

(** *** The middleware chain *)

(** The loop over middlewares none of which is nil, started [n] steps from
    its exit, wraps the handler in the first [n] of them, the one at index 0
    last. *)
Lemma applyMiddlewares_loop_foldr
    (fs : list (HttpHandler -> HttpHandler)) (n : nat) (h : HttpHandler) :
  (n <= length fs)%nat ->
  applyMiddlewares_loop (Some <$> fs) n h = Returned (foldr (fun f k => f k) h (take n fs)).
Proof.
  revert h. induction n as [|i IH]; intros h Hn.
  - reflexivity.
  - cbn [applyMiddlewares_loop]. rewrite list_lookup_fmap.
    destruct (fs !! i) as [f|] eqn:Hf; simpl.
    + rewrite IH by lia.
      erewrite take_S_r by exact Hf. now rewrite foldr_app.
    + apply lookup_ge_None in Hf. lia.
Qed.

(** The loop panics on the nil middleware of highest index below [n]: a nil
    middleware among the first [n] makes it end in a nil pointer
    dereference. *)
Lemma applyMiddlewares_loop_nil (mws : list Middleware) (n j : nat) (h : HttpHandler) :
  (n <= length mws)%nat -> (j < n)%nat -> mws !! j = Some None ->
  applyMiddlewares_loop mws n h = Panicked NilPointerDereference.
Proof.
  revert h. induction n as [|i IH]; intros h Hn Hj Hnil; [lia|].
  cbn [applyMiddlewares_loop].
  destruct (mws !! i) as [[f|]|] eqn:Hi.
  - apply IH; [lia| |exact Hnil].
    destruct (decide (j = i)) as [->|Hne]; [congruence|lia].
  - reflexivity.
  - apply lookup_ge_None in Hi. unfold server.Middleware in *. lia.
Qed.

(** With no nil middleware the composed handler is
    [m0 (m1 (... (mn-1 mux)))] for the sequence [m0; ...; mn-1] of registered
    middlewares; the indexing of the loop is in range. *)
Lemma applyMiddlewares_composition (s : Server) (fs : list (HttpHandler -> HttpHandler)) :
  middlewares s = Some <$> fs ->
  applyMiddlewares mux_unmatched s
  = Returned (foldr (fun f k => f k) (ServeMux_ServeHTTP mux_unmatched (mux s)) fs).
Proof.
  intros E. unfold applyMiddlewares. rewrite E, length_fmap.
  rewrite applyMiddlewares_loop_foldr by lia.
  now rewrite firstn_all.
Qed.

(** With a nil middleware anywhere in the sequence [applyMiddlewares]
    panics. *)
Lemma applyMiddlewares_nil (s : Server) :
  None ∈ middlewares s ->
  applyMiddlewares mux_unmatched s = Panicked NilPointerDereference.
Proof.
  intros Hin. apply list_elem_of_lookup in Hin as [j Hj].
  unfold applyMiddlewares.
  eapply applyMiddlewares_loop_nil; [lia| |exact Hj].
  now apply lookup_lt_Some in Hj.
Qed.

(** A sequence of middlewares holds a nil one or is a sequence of
    functions. *)
Lemma middlewares_nil_or_functions (mws : list Middleware) :
  None ∈ mws \/ exists fs : list (HttpHandler -> HttpHandler), mws = Some <$> fs.
Proof.
  induction mws as [|[f|] mws IH].
  - right. now exists [].
  - destruct IH as [Hin|[fs ->]].
    + left. now apply elem_of_cons; right.
    + right. now exists (f :: fs).
  - left. apply elem_of_cons. now left.
Qed.

(** Registration appends: the middleware registered last is the last of the
    sequence. *)
Lemma RegisterMiddleware_appends (m : Middleware) (s : Server) :
  middlewares (RegisterMiddleware m s) = middlewares s ++ [m].
Proof. reflexivity. Qed.

(** The middleware registered first is the outermost wrapper. *)
Lemma applyMiddlewares_first_outermost
    (s : Server) (f0 : HttpHandler -> HttpHandler) (rest : list (HttpHandler -> HttpHandler)) :
  middlewares s = Some <$> (f0 :: rest) ->
  applyMiddlewares mux_unmatched s
  = Returned (f0 (foldr (fun f k => f k) (ServeMux_ServeHTTP mux_unmatched (mux s)) rest)).
Proof. intros E. now rewrite (applyMiddlewares_composition _ _ E). Qed.

(** The middleware registered last is the innermost wrapper: it is applied
    to the mux itself. *)
Lemma applyMiddlewares_last_innermost
    (s : Server) (f : HttpHandler -> HttpHandler) (fs : list (HttpHandler -> HttpHandler)) :
  middlewares s = Some <$> fs ->
  applyMiddlewares mux_unmatched (RegisterMiddleware (Some f) s)
  = Returned (foldr (fun g k => g k) (f (ServeMux_ServeHTTP mux_unmatched (mux s))) fs).
Proof.
  intros E. rewrite (applyMiddlewares_composition _ (fs ++ [f])).
  - now rewrite foldr_app.
  - simpl. now rewrite E, fmap_app.
Qed.

End ServerProperties.

(** C1, on a server with one route and two tracing middlewares, "first"
    registered before "second": the composed handler is
    [first (second mux)], so it is "first", the middleware registered first,
    that sees the request first and the response last, and "second", the one
    registered last, is the innermost wrapper. *)
Theorem applyMiddlewares_two_tracing_middlewares :
  exists s1 h,
    server.RegisterHandler
      {| server.Path := "/ping"; server.Handler_Handler := Some (fixtures.route "pong") |}
      fixtures.fresh = Returned s1
    /\ server.applyMiddlewares fixtures.not_found
         (server.RegisterMiddleware (fixtures.tracing "second")
            (server.RegisterMiddleware (fixtures.tracing "first") s1)) = Returned h
    /\ h fixtures.ping []
       = ["first sees the request"; "second sees the request"; "pong handles";
          "second sees the response"; "first sees the response"].
Proof.
  eexists. eexists. split; [reflexivity|]. split; [reflexivity|].
  reflexivity.
Qed.

Section RegistryProperties.

Import server.

Context {W Logger : Type}.

Local Abbreviation Server := (@server.Server W Logger).
Local Abbreviation HttpHandler := (@server.HttpHandler W).

(** A registration that returns has added the entry and changed nothing
    else of the server. *)
Lemma RegisterHandler_returned (s s1 : Server) (p : string) (h : option HttpHandler) :
  RegisterHandler {| Path := p; Handler_Handler := h |} s = Returned s1 ->
  exists h1, h = Some h1
    /\ mux_m (mux s) !! p = None
    /\ mux_m (mux s1) = <[p := h1]> (mux_m (mux s))
    /\ srv s1 = srv s /\ closer s1 = closer s /\ middlewares s1 = middlewares s.
Proof.
  unfold RegisterHandler, ServeMux_Handle. simpl.
  destruct (String.eqb p ""); [discriminate|].
  destruct h as [h1|]; [|discriminate].
  destruct (mux_m (mux s) !! p) eqn:E; [discriminate|].
  intros [= <-]. exists h1. simpl. repeat split; reflexivity.
Qed.

(** A path that is registered cannot be registered again. *)
Lemma RegisterHandler_duplicate (s : Server) (p : string) (h : option HttpHandler) :
  is_Some (mux_m (mux s) !! p) ->
  exists v, RegisterHandler {| Path := p; Handler_Handler := h |} s = Panicked v.
Proof.
  intros [h0 E]. unfold RegisterHandler, ServeMux_Handle. simpl.
  destruct (String.eqb p ""); [eauto|].
  destruct h; [|eauto]. rewrite E. eauto.
Qed.

(** C3, amended.  When [RegisterHandler] for the path [p] with [h1] has
    returned, [RegisterHandler] for [p] with [h2] panics: the mux refuses a
    pattern that is registered already.  The call leaves the server exactly
    as it was before it: [h1] is still the handler registered under [p], and
    every request is served as it was before the call, whatever the mux does
    with the paths that are left open here.  The first registration
    stays. *)
Theorem RegisterHandler_same_path_twice
    (s s1 : Server) (p : string) (h1 : HttpHandler) (h2 : option HttpHandler) :
  RegisterHandler {| Path := p; Handler_Handler := Some h1 |} s = Returned s1 ->
  (exists v, RegisterHandler {| Path := p; Handler_Handler := h2 |} s1 = Panicked v)
  /\ (forall s2, RegisterHandler {| Path := p; Handler_Handler := h2 |} s1 <> Returned s2)
  /\ RegisterHandler_leaves {| Path := p; Handler_Handler := h2 |} s1 = s1
  /\ mux_m (mux (RegisterHandler_leaves {| Path := p; Handler_Handler := h2 |} s1)) !! p
     = Some h1
  /\ (forall mux_unmatched : @ServeMux W -> HttpHandler,
        ServeMux_ServeHTTP mux_unmatched
          (mux (RegisterHandler_leaves {| Path := p; Handler_Handler := h2 |} s1))
        = ServeMux_ServeHTTP mux_unmatched (mux s1)).
Proof.
  intros H1.
  destruct (RegisterHandler_returned _ _ _ _ H1) as (h & [= <-] & _ & Em & _).
  assert (mux_m (mux s1) !! p = Some h1) as Hreg.
  { rewrite Em. apply lookup_insert_eq. }
  destruct (RegisterHandler_duplicate s1 p h2) as [v Hv].
  { rewrite Hreg. eauto. }
  assert (RegisterHandler_leaves {| Path := p; Handler_Handler := h2 |} s1 = s1) as Hsame.
  { unfold RegisterHandler_leaves. now rewrite Hv. }
  rewrite Hsame. repeat split; eauto.
  intros s2. rewrite Hv. discriminate.
Qed.

End RegistryProperties.

(** C3 at the path "/ping" on a fresh server. *)
Lemma RegisterHandler_same_path_twice_witness :
  exists s1,
    server.RegisterHandler
      {| server.Path := "/ping"; server.Handler_Handler := Some (fixtures.route "one") |}
      fixtures.fresh = Returned s1
    /\ (exists v, server.RegisterHandler
          {| server.Path := "/ping"; server.Handler_Handler := Some (fixtures.route "two") |}
          s1 = Panicked v)
    /\ server.RegisterHandler_leaves
         {| server.Path := "/ping"; server.Handler_Handler := Some (fixtures.route "two") |}
         s1 = s1
    /\ server.mux_m (server.mux s1) !! "/ping" = Some (fixtures.route "one").
Proof.
  eexists. split; [reflexivity|].
  destruct (RegisterHandler_same_path_twice fixtures.fresh _ "/ping"
              (fixtures.route "one") (Some (fixtures.route "two")) eq_refl)
    as (Hpanic & _ & Hsame & Hreg & _).
  split; [exact Hpanic|]. split; [exact Hsame|].
  rewrite Hsame in Hreg. exact Hreg.
Defined.

(** C3, as stated, fails: on a fresh server the second registration for
    "/ping" does not go through, so there is no server after it on which
    the second handler would serve "/ping". *)
Lemma RegisterHandler_twice_no_last_write_wins :
  ~ (exists s1 s2,
       server.RegisterHandler
         {| server.Path := "/ping"; server.Handler_Handler := Some (fixtures.route "one") |}
         fixtures.fresh = Returned s1
       /\ server.RegisterHandler
            {| server.Path := "/ping"; server.Handler_Handler := Some (fixtures.route "two") |}
            s1 = Returned s2
       /\ server.ServeMux_match (server.mux s2) "/ping" = Some (fixtures.route "two")).
Proof.
  intros (s1 & s2 & H1 & H2 & _).
  destruct (RegisterHandler_returned _ _ _ _ H1) as (h & _ & _ & Em & _).
  destruct (RegisterHandler_returned _ _ _ _ H2) as (h' & _ & Hfree & _).
  rewrite Em, lookup_insert_eq in Hfree. discriminate.
Qed.

Section StopProperties.

Import server.

Context {W Logger : Type}.

Local Abbreviation Server := (@server.Server W Logger).
Local Abbreviation HttpServer := (@server.HttpServer W).
Local Abbreviation Effect := (@server.Effect W Logger).

(** The deadline of the shutdown sequence: five seconds after the call. *)
Local Abbreviation grace env := ({| Deadline := Some (Now env + 5000000000) |}).

Lemma Stop_sets_closer (env : Env) (s : Server) : closer (Stop env s).1.2 = true.
Proof.
  unfold Stop. destruct (closer s) eqn:E; [exact E|].
  destruct (Stop_body env s). reflexivity.
Qed.

(** With the flag set, [Stop] does nothing. *)
Lemma Stop_when_done (env : Env) (s : Server) :
  closer s = true -> Stop env s = (Returned tt, s, []).
Proof. intros E. unfold Stop. now rewrite E. Qed.

Lemma Stop_repeatedly_when_done (envs : list Env) (s : Server) :
  closer s = true ->
  Stop_repeatedly envs s = (map (fun _ => Returned tt) envs, s, []).
Proof.
  intros E. induction envs as [|env rest IH]; [reflexivity|].
  cbn [Stop_repeatedly]. now rewrite (Stop_when_done _ _ E), IH.
Qed.

(** One call of [Stop] runs the shutdown sequence at most once. *)
Lemma Stop_shutdown_sequences (env : Env) (s : Server) :
  (shutdown_sequences (Stop env s).2 <= 1)%nat.
Proof.
  unfold Stop, Stop_body, http_Server_Shutdown.
  destruct (closer s); [simpl; lia|].
  destruct (srv s); [destruct (ShutdownAnswer env)|]; simpl; lia.
Qed.

(** C2, amended.  [Stop] on a server whose network server handle is still
    nil (Start never ran) and whose guard has not fired does not hang: the
    call ends, but it ends in a panic, the nil pointer dereference of
    [s.srv.Shutdown].  Nothing is logged; the deferred [cancel] runs and the
    guard is spent, so a later [Stop] returns at once without doing
    anything. *)
Theorem Stop_before_Start_panics (env env' : Env) (s : Server) :
  srv s = None -> closer s = false ->
  Stop env s
  = (Panicked NilPointerDereference, closer_done s, [ContextCancelled (grace env)])
  /\ Stop env' (closer_done s) = (Returned tt, closer_done s, []).
Proof.
  intros Hsrv Hclo. split.
  - unfold Stop, Stop_body, http_Server_Shutdown. now rewrite Hclo, Hsrv.
  - now apply Stop_when_done.
Qed.

(** C4.  Whatever the first call of [Stop] did, every later call returns
    without an error, leaves the server as it is and does nothing to the
    outside; so any number of calls behaves as the first one alone, and the
    shutdown sequence runs at most once over all of them. *)
Theorem Stop_runs_shutdown_at_most_once (env env' : Env) (envs : list Env) (s : Server) :
  Stop env' (Stop env s).1.2 = (Returned tt, (Stop env s).1.2, [])
  /\ Stop_repeatedly (env :: envs) s
     = ((Stop env s).1.1 :: map (fun _ => Returned tt) envs, (Stop env s).1.2, (Stop env s).2)
  /\ (shutdown_sequences (Stop_repeatedly (env :: envs) s).2 <= 1)%nat.
Proof.
  pose proof (Stop_sets_closer env s) as Hdone.
  pose proof (Stop_shutdown_sequences env s) as Hone.
  assert (Stop_repeatedly (env :: envs) s
          = ((Stop env s).1.1 :: map (fun _ => Returned tt) envs,
             (Stop env s).1.2, (Stop env s).2)) as Hall.
  { cbn [Stop_repeatedly]. destruct (Stop env s) as [[r1 s1] eff1]. simpl in *.
    rewrite (Stop_repeatedly_when_done envs s1 Hdone). now rewrite app_nil_r. }
  split; [now apply Stop_when_done|]. split; [exact Hall|].
  now rewrite Hall.
Qed.

(** C8.  On a started server whose guard has not fired, [Stop] returns
    normally whatever the network server answers.  It asks the network
    server to shut down under a context whose deadline is the time of the
    call plus 5 seconds, then logs either "HTTP server gracefully stopped"
    at level info or "HTTP server shutdown error" with the very error at
    level error, then cancels the context; it does nothing else. *)
Theorem Stop_shutdown_sequence (env : Env) (s : Server) (live : HttpServer) :
  srv s = Some live -> closer s = false ->
  Stop env s
  = (Returned tt, closer_done s,
     [ShutdownCalled live (grace env);
      match ShutdownAnswer env with
      | Some err => Log (logger s) LevelError "HTTP server shutdown error"
                        [("error", VError (Some err))]
      | None => Log (logger s) LevelInfo "HTTP server gracefully stopped" []
      end;
      ContextCancelled (grace env)]).
Proof.
  intros Hsrv Hclo.
  unfold Stop, Stop_body, http_Server_Shutdown. rewrite Hclo, Hsrv.
  now destruct (ShutdownAnswer env).
Qed.

End StopProperties.

(** C2 on a fresh server at noon. *)
Lemma Stop_before_Start_panics_witness :
  server.Stop fixtures.noon fixtures.fresh
  = (Panicked NilPointerDereference, server.closer_done fixtures.fresh,
     [server.ContextCancelled {| server.Deadline := Some 43205000000000 |}])
  /\ server.Stop fixtures.noon (server.closer_done fixtures.fresh)
     = (Returned tt, server.closer_done fixtures.fresh, []).
Proof.
  apply (Stop_before_Start_panics fixtures.noon fixtures.noon fixtures.fresh);
    reflexivity.
Defined.

(** C2, as stated, fails: [Stop] on a fresh server does not return. *)
Lemma Stop_before_Start_does_not_return :
  ~ (exists s' eff, server.Stop fixtures.noon fixtures.fresh = (Returned tt, s', eff)).
Proof. intros (s' & eff & H). discriminate H. Qed.

(** C8 on a started server whose network server drains in time. *)
Lemma Stop_shutdown_sequence_witness :
  exists s live,
    server.Start_setup fixtures.not_found fixtures.fresh = Returned s
    /\ server.srv s = Some live
    /\ server.Stop fixtures.noon s
       = (Returned tt, server.closer_done s,
          [server.ShutdownCalled live {| server.Deadline := Some 43205000000000 |};
           server.Log "logger" server.LevelInfo "HTTP server gracefully stopped" [];
           server.ContextCancelled {| server.Deadline := Some 43205000000000 |}]).
Proof.
  eexists. eexists. split; [reflexivity|]. split; [reflexivity|].
  apply (Stop_shutdown_sequence fixtures.noon); reflexivity.
Defined.

(** The same server when the drain runs into the deadline: the error is
    logged and [Stop] returns. *)
Example Stop_logs_drain_error :
  exists s live,
    server.Start_setup fixtures.not_found fixtures.fresh = Returned s
    /\ server.srv s = Some live
    /\ server.Stop fixtures.noon_slow s
       = (Returned tt, server.closer_done s,
          [server.ShutdownCalled live {| server.Deadline := Some 43205000000000 |};
           server.Log "logger" server.LevelError "HTTP server shutdown error"
             [("error", server.VError (Some server.DeadlineExceeded))];
           server.ContextCancelled {| server.Deadline := Some 43205000000000 |}]).
Proof.
  eexists. eexists. split; [reflexivity|]. split; reflexivity.
Qed.

Section StartProperties.

Import server.

Context {W Logger : Type}.
Variable mux_unmatched : @ServeMux W -> @HttpHandler W.

Local Abbreviation Server := (@server.Server W Logger).
Local Abbreviation System := (@server.System W Logger).
Local Abbreviation step := (@server.step W Logger mux_unmatched).
Local Abbreviation run := (@server.run W Logger mux_unmatched).

Lemma Stop_keeps_srv (env : Env) (s : Server) : srv (Stop env s).1.2 = srv s.
Proof.
  unfold Stop. destruct (closer s); [reflexivity|].
  destruct (Stop_body env s). reflexivity.
Qed.

Lemma Start_setup_sets_srv (s s' : Server) :
  Start_setup mux_unmatched s = Returned s' -> is_Some (srv s').
Proof.
  unfold Start_setup. destruct (cfg s); [|discriminate].
  destruct (applyMiddlewares mux_unmatched s); [|discriminate].
  intros [= <-]. simpl. eauto.
Qed.

(** A goroutine that calls [Stop] ends up at [pc] or, on a panic, stays
    where it was; the context and the accept loop are not touched and the
    network server handle is kept. *)
Lemma call_Stop_frame (env : Env) (pc : MainPc) (sys : System) :
  (main (call_Stop env pc sys) = pc \/ main (call_Stop env pc sys) = main sys)
  /\ ctx_done (call_Stop env pc sys) = ctx_done sys
  /\ accept (call_Stop env pc sys) = accept sys
  /\ srv (server (call_Stop env pc sys)) = srv (server sys).
Proof.
  unfold call_Stop. pose proof (Stop_keeps_srv env (server sys)) as Hsrv.
  destruct (Stop env (server sys)) as [[r s'] eff]. simpl in Hsrv.
  destruct r; simpl; auto.
Qed.

(** What one step can change. *)
Lemma step_frame (l : Label) (sys sys' : System) :
  step l sys = Some sys' ->
  (main sys' = MainReturned -> main sys = MainReturned \/ ctx_done sys = true)
  /\ (ctx_done sys' = true -> ctx_done sys = true \/ l = StepCancel)
  /\ (ctx_done sys = true -> ctx_done sys' = true)
  /\ ((accept sys <> AcceptUnborn -> is_Some (srv (server sys))) ->
      accept sys' <> AcceptUnborn -> is_Some (srv (server sys'))).
Proof.
  unfold server.step. destruct (crashed sys); [discriminate|].
  destruct l as [env|err| |env].
  - destruct (main sys) eqn:Em.
    + destruct (Start_setup mux_unmatched (server sys)) as [s1|v] eqn:Es.
      * intros [= <-]. simpl. apply Start_setup_sets_srv in Es.
        repeat split; auto; discriminate.
      * intros [= <-]. simpl. rewrite Em. repeat split; auto; discriminate.
    + destruct (ctx_done sys) eqn:Ec; [|discriminate].
      intros [= <-].
      destruct (call_Stop_frame env MainReturned sys) as (_ & Hc & Ha & Hs).
      rewrite Hc, Ha, Hs. repeat split; auto.
    + discriminate.
  - destruct (accept sys) eqn:Ea; destruct (srv (server sys)) eqn:Es;
      try discriminate; intros [= <-]; simpl; rewrite ?Es;
      repeat split; auto; try (intros H; apply H; discriminate).
  - intros [= <-]. simpl. repeat split; auto.
  - intros [= <-].
    destruct (call_Stop_frame env (main sys) sys) as (Hm & Hc & Ha & Hs).
    rewrite Hc, Ha, Hs. repeat split; auto.
    destruct Hm as [-> | ->]; auto.
Qed.

(** The same along a schedule. *)
Lemma run_frame (schedule : list Label) (sys sys' : System) :
  run schedule sys = Some sys' ->
  (main sys = MainReturned -> ctx_done sys = true) ->
  (accept sys <> AcceptUnborn -> is_Some (srv (server sys))) ->
  (main sys' = MainReturned -> ctx_done sys' = true)
  /\ (ctx_done sys' = true -> ctx_done sys = true \/ In StepCancel schedule)
  /\ (accept sys' <> AcceptUnborn -> is_Some (srv (server sys'))).
Proof.
  revert sys. induction schedule as [|l rest IH]; intros sys Hrun Hret Hsrv.
  - injection Hrun as <-. simpl. auto.
  - cbn [server.run] in Hrun. destruct (step l sys) as [mid|] eqn:Estep; [|discriminate].
    destruct (step_frame _ _ _ Estep) as (Hm & Hc & Hmono & Hs).
    destruct (IH mid Hrun) as (IH1 & IH2 & IH3).
    + intros Hr. destruct (Hm Hr) as [H|H]; auto.
    + auto.
    + repeat split; auto.
      intros Hd. destruct (IH2 Hd) as [H|H]; [|right; now right].
      destruct (Hc H) as [H'|H']; [now left|right; left; now symmetry].
Qed.

(** C9.  In every state that [Start] and the goroutines around it can
    reach: if [Start] has returned, the context was cancelled; while the
    context is not cancelled, a waiting [Start] cannot move; when the accept
    loop ends with the error [err], the goroutine logs "HTTP server error"
    with [err] at level error unless [errors.Is(err, http.ErrServerClosed)],
    in which case it logs nothing, and in both cases it changes neither
    where [Start] stands nor the context nor the server, so that a [Start]
    that waited still cannot move.  These states are reached: the first
    statement of [Start], when it does not panic, leaves [Start] waiting and
    the accept goroutine launched, and the first step of that goroutine logs
    "Starting HTTP server" with the address and enters the accept loop. *)
Theorem Start_returns_only_on_cancel (s : Server) (schedule : list Label) (sys : System) :
  run schedule (boot s) = Some sys ->
  (main sys = MainReturned -> In StepCancel schedule /\ ctx_done sys = true)
  /\ (main sys = MainWaiting -> ctx_done sys = false ->
      forall env, step (StepMain env) sys = None)
  /\ (accept sys = AcceptServing -> crashed sys = false ->
      forall err, exists sys',
        step (StepAccept err) sys = Some sys'
        /\ effects sys'
           = effects sys ++
             (if errors_Is err (Some ErrServerClosed) then []
              else [Log (logger (server sys)) LevelError "HTTP server error"
                        [("error", VError err)]])
        /\ main sys' = main sys /\ ctx_done sys' = ctx_done sys
        /\ server sys' = server sys /\ crashed sys' = false
        /\ accept sys' = AcceptExited
        /\ (main sys = MainWaiting -> ctx_done sys = false ->
            forall env, step (StepMain env) sys' = None))
  /\ (accept sys = AcceptLaunched -> crashed sys = false ->
      forall err, exists live sys',
        srv (server sys) = Some live
        /\ step (StepAccept err) sys = Some sys'
        /\ effects sys'
           = effects sys ++
             [Log (logger (server sys)) LevelInfo "Starting HTTP server"
                  [("address", VString (Addr live))]]
        /\ accept sys' = AcceptServing
        /\ main sys' = main sys /\ ctx_done sys' = ctx_done sys
        /\ server sys' = server sys /\ crashed sys' = false)
  /\ (forall env mid,
        step (StepMain env) (boot s) = Some mid -> crashed mid = false ->
        main mid = MainWaiting /\ accept mid = AcceptLaunched
        /\ ctx_done mid = false /\ effects mid = []).
Proof.
  intros Hrun.
  destruct (run_frame _ _ _ Hrun) as (Hret & Hcancel & Hsrv);
    [discriminate | intros H; now contradiction H |].
  split; [|split; [|split; [|split]]].
  - intros Hr. pose proof (Hret Hr) as Hd. split; [|exact Hd].
    destruct (Hcancel Hd) as [H|H]; [discriminate H | exact H].
  - intros Hw Hd env. unfold server.step.
    destruct (crashed sys); [reflexivity|]. now rewrite Hw, Hd.
  - intros Ha Hc err. unfold server.step at 1. rewrite Hc, Ha.
    destruct Hsrv as [live Hlive]; [rewrite Ha; discriminate|].
    rewrite Hlive. eexists. split; [reflexivity|]. simpl.
    repeat split; try reflexivity.
    intros Hw Hd env. unfold server.step. simpl. now rewrite Hw, Hd.
  - intros Ha Hc err. unfold server.step. rewrite Hc, Ha.
    destruct Hsrv as [live Hlive]; [rewrite Ha; discriminate|].
    rewrite Hlive. exists live. eexists. split; [reflexivity|].
    split; [reflexivity|]. simpl. repeat split; reflexivity.
  - intros env mid. unfold server.step. simpl.
    destruct (Start_setup mux_unmatched s) as [s1|v].
    + intros [= <-] _. simpl. repeat split; reflexivity.
    + intros [= <-]. simpl. discriminate.
Qed.

End StartProperties.

(** C9 on the schedule in which the listener fails at once.  After its
    first two steps the accept loop serves and [Start] waits; the failure of
    the listener is then logged and [Start] still cannot move; at the end of
    the schedule [Start] has returned, and the schedule does contain the
    cancellation. *)
Lemma Start_returns_only_on_cancel_witness :
  server.run fixtures.not_found (take 2 fixtures.listener_fails) (server.boot fixtures.fresh)
  = Some fixtures.serving
  /\ server.accept fixtures.serving = server.AcceptServing
  /\ server.main fixtures.serving = server.MainWaiting
  /\ (exists sys',
        server.step fixtures.not_found
          (server.StepAccept
             (Some (server.ErrorString "listen tcp :8080: bind: address already in use")))
          fixtures.serving = Some sys'
        /\ server.effects sys'
           = server.effects fixtures.serving ++
             [server.Log "logger" server.LevelError "HTTP server error"
                [("error", server.VError
                    (Some (server.ErrorString
                             "listen tcp :8080: bind: address already in use")))]]
        /\ server.main sys' = server.MainWaiting
        /\ server.step fixtures.not_found (server.StepMain fixtures.noon) sys' = None)
  /\ (exists sys,
        server.run fixtures.not_found fixtures.listener_fails (server.boot fixtures.fresh)
        = Some sys
        /\ server.main sys = server.MainReturned
        /\ In server.StepCancel fixtures.listener_fails
        /\ server.ctx_done sys = true).
Proof.
  split; [reflexivity|]. split; [reflexivity|]. split; [reflexivity|]. split.
  - destruct (Start_returns_only_on_cancel fixtures.not_found fixtures.fresh
                (take 2 fixtures.listener_fails) fixtures.serving eq_refl)
      as (_ & _ & Hlog & _).
    destruct (Hlog eq_refl eq_refl
                (Some (server.ErrorString "listen tcp :8080: bind: address already in use")))
      as (sys' & Hstep & Heff & Hm & _ & _ & _ & _ & Hblocked).
    exists sys'. split; [exact Hstep|]. split; [exact Heff|]. split; [exact Hm|].
    apply Hblocked; reflexivity.
  - eexists. split; [reflexivity|]. split; [reflexivity|].
    apply (Start_returns_only_on_cancel fixtures.not_found fixtures.fresh
             fixtures.listener_fails); reflexivity.
Defined.

(** On that schedule the failure of the listener is logged between the
    first line of the accept loop and the shutdown sequence, and without the
    two last steps (the cancellation and the wake-up) [Start] is still
    waiting. *)
Example listener_fails_trace :
  (exists sys live,
     server.run fixtures.not_found fixtures.listener_fails (server.boot fixtures.fresh)
       = Some sys
     /\ server.srv (server.server sys) = Some live
     /\ server.effects sys
        = [server.Log "logger" server.LevelInfo "Starting HTTP server"
             [("address", server.VString "localhost:8080")];
           server.Log "logger" server.LevelError "HTTP server error"
             [("error", server.VError
                 (Some (server.ErrorString "listen tcp :8080: bind: address already in use")))];
           server.ShutdownCalled live {| server.Deadline := Some 43205000000000 |};
           server.Log "logger" server.LevelInfo "HTTP server gracefully stopped" [];
           server.ContextCancelled {| server.Deadline := Some 43205000000000 |}])
  /\ (exists sys,
        server.run fixtures.not_found (take 3 fixtures.listener_fails)
          (server.boot fixtures.fresh) = Some sys
        /\ server.main sys = server.MainWaiting
        /\ server.accept sys = server.AcceptExited
        /\ server.step fixtures.not_found (server.StepMain fixtures.noon) sys = None).
Proof.
  split.
  - eexists. eexists. split; [reflexivity|]. split; [reflexivity|]. reflexivity.
  - eexists. split; [reflexivity|]. repeat split; reflexivity.
Qed.

(** * Further properties of package server: registration *)

Section RegistrationProperties.

Import server.

Context {W Logger : Type}.
Variable mux_unmatched : @ServeMux W -> @HttpHandler W.

Local Abbreviation Server := (@server.Server W Logger).
Local Abbreviation HttpHandler := (@server.HttpHandler W).
Local Abbreviation Middleware := (@server.Middleware W).

(** Registering middlewares one after the other extends the sequence in
    that order and touches nothing else. *)
Lemma RegisterMiddleware_many (ms : list Middleware) (s : Server) :
  middlewares (foldl (fun s0 m => RegisterMiddleware m s0) s ms) = middlewares s ++ ms
  /\ mux (foldl (fun s0 m => RegisterMiddleware m s0) s ms) = mux s
  /\ srv (foldl (fun s0 m => RegisterMiddleware m s0) s ms) = srv s
  /\ closer (foldl (fun s0 m => RegisterMiddleware m s0) s ms) = closer s.
Proof.
  revert s. induction ms as [|m ms IH]; intros s; simpl.
  - now rewrite app_nil_r.
  - destruct (IH (RegisterMiddleware m s)) as (Hm & Hx & Hs & Hc).
    rewrite Hm, Hx, Hs, Hc. simpl. now rewrite <- app_assoc.
Qed.

(** X1.  [RegisterMiddleware] takes any middleware, a nil one too; what
    comes of it shows in [applyMiddlewares].  After registering the
    middlewares [ms] in order on a server: when none of the server's
    middlewares, old or new, is nil (and each returns when it is applied),
    [applyMiddlewares] returns the mux wrapped first in [ms] and then in the
    earlier middlewares, so that the ones registered later sit inside the
    ones registered earlier and, with no middleware at all, the handler is
    the mux itself; when one of them is nil, [applyMiddlewares] panics with
    a nil pointer dereference.  It never indexes out of range. *)
Theorem applyMiddlewares_after_registrations (ms : list Middleware) (s : Server) :
  (forall fs0 fs : list (HttpHandler -> HttpHandler),
     middlewares s = Some <$> fs0 -> ms = Some <$> fs ->
     applyMiddlewares mux_unmatched (foldl (fun s0 m => RegisterMiddleware m s0) s ms)
     = Returned (foldr (fun f k => f k)
                   (foldr (fun f k => f k) (ServeMux_ServeHTTP mux_unmatched (mux s)) fs)
                   fs0))
  /\ (None ∈ middlewares s ++ ms ->
      applyMiddlewares mux_unmatched (foldl (fun s0 m => RegisterMiddleware m s0) s ms)
      = Panicked NilPointerDereference)
  /\ ((exists h, applyMiddlewares mux_unmatched
                   (foldl (fun s0 m => RegisterMiddleware m s0) s ms) = Returned h)
      \/ applyMiddlewares mux_unmatched (foldl (fun s0 m => RegisterMiddleware m s0) s ms)
         = Panicked NilPointerDereference).
Proof.
  destruct (RegisterMiddleware_many ms s) as (Hm & Hx & _).
  assert (None ∈ middlewares s ++ ms ->
          applyMiddlewares mux_unmatched (foldl (fun s0 m => RegisterMiddleware m s0) s ms)
          = Panicked NilPointerDereference) as Hnil.
  { intros Hin. apply applyMiddlewares_nil. now rewrite Hm. }
  split; [|split].
  - intros fs0 fs E0 E.
    rewrite (applyMiddlewares_composition _ _ (fs0 ++ fs)).
    + now rewrite Hx, foldr_app.
    + now rewrite Hm, E0, E, fmap_app.
  - exact Hnil.
  - destruct (middlewares_nil_or_functions (middlewares s ++ ms)) as [Hin|[fs E]].
    + right. now apply Hnil.
    + left. eexists. apply (applyMiddlewares_composition _ _ fs). now rewrite Hm.
Qed.


(** X6.  Routes and middlewares can be registered in either order:
    registering a route after a middleware gives what registering the
    middleware after the route gives, and panics when that panics. *)
Theorem RegisterHandler_RegisterMiddleware_commute
    (h : @Handler W) (m : Middleware) (s : Server) :
  RegisterHandler h (RegisterMiddleware m s)
  = match RegisterHandler h s with
    | Returned s1 => Returned (RegisterMiddleware m s1)
    | Panicked v => Panicked v
    end.
Proof.
  unfold RegisterHandler. simpl.
  now destruct (ServeMux_Handle (Path h) (Handler_Handler h) (mux s)).
Qed.

(** X7.  The first statement of [Start] panics with a nil pointer
    dereference when the server's [cfg] is nil and when one of its
    middlewares is nil.  Otherwise (the middlewares returning when they are
    applied) it returns: it sets the network server handle to a server that
    listens on "host:port", reads headers for at most 10 seconds and serves
    through the middleware chain around the mux; it changes nothing else;
    and running it again on its result sets the handle to a server with the
    same fields. *)
Theorem Start_setup_outcome (s : Server) :
  (cfg s = None -> Start_setup mux_unmatched s = Panicked NilPointerDereference)
  /\ (None ∈ middlewares s -> Start_setup mux_unmatched s = Panicked NilPointerDereference)
  /\ (forall (c : Config) (fs : list (HttpHandler -> HttpHandler)),
        cfg s = Some c -> middlewares s = Some <$> fs ->
        exists s1 live,
          Start_setup mux_unmatched s = Returned s1
          /\ srv s1 = Some live
          /\ Addr live = Host (HTTP c) +:+ ":" +:+ pretty (Port (HTTP c))
          /\ ReadHeaderTimeout live = 10000000000
          /\ Server_Handler live
             = foldr (fun f k => f k) (ServeMux_ServeHTTP mux_unmatched (mux s)) fs
          /\ cfg s1 = cfg s /\ logger s1 = logger s /\ mux s1 = mux s
          /\ closer s1 = closer s /\ middlewares s1 = middlewares s
          /\ Start_setup mux_unmatched s1 = Returned s1).
Proof.
  unfold Start_setup. split; [|split].
  - now intros ->.
  - intros Hin. rewrite (applyMiddlewares_nil _ _ Hin). now destruct (cfg s).
  - intros c fs Ec Em. rewrite Ec, (applyMiddlewares_composition _ _ fs Em).
    eexists. eexists. split; [reflexivity|]. simpl.
    rewrite (applyMiddlewares_composition _ _ fs) by exact Em. simpl.
    repeat split; reflexivity.
Qed.

End RegistrationProperties.

(** X1 on a fresh server: two tracing middlewares compose, "first" outside
    "second"; with a nil middleware registered after them the composition
    panics. *)
Lemma applyMiddlewares_after_registrations_witness :
  (exists h,
     server.applyMiddlewares fixtures.not_found
       (foldl (fun s0 m => server.RegisterMiddleware m s0) fixtures.fresh
          [fixtures.tracing "first"; fixtures.tracing "second"]) = Returned h
     /\ h fixtures.ping []
        = ["first sees the request"; "second sees the request"; "404 page not found";
           "second sees the response"; "first sees the response"])
  /\ server.applyMiddlewares fixtures.not_found
       (foldl (fun s0 m => server.RegisterMiddleware m s0) fixtures.fresh
          [fixtures.tracing "first"; fixtures.tracing "second"; None])
     = Panicked NilPointerDereference.
Proof.
  split.
  - eexists. split.
    + apply (proj1 (applyMiddlewares_after_registrations fixtures.not_found
                      [fixtures.tracing "first"; fixtures.tracing "second"] fixtures.fresh)
               [] [fixtures.tracing_func "first"; fixtures.tracing_func "second"]);
        reflexivity.
    + reflexivity.
  - apply (proj1 (proj2 (applyMiddlewares_after_registrations fixtures.not_found
                           [fixtures.tracing "first"; fixtures.tracing "second"; None]
                           fixtures.fresh))).
    simpl. apply list_elem_of_further, list_elem_of_further, list_elem_of_here.
Defined.


(** X7 on a fresh server, and on a server made with a nil [cfg]. *)
Lemma Start_setup_outcome_witness :
  (exists s1 live,
     server.Start_setup fixtures.not_found fixtures.fresh = Returned s1
     /\ server.srv s1 = Some live
     /\ server.Addr live = "localhost:8080"
     /\ server.ReadHeaderTimeout live = 10000000000)
  /\ server.Start_setup fixtures.not_found
       (server.New None "logger" [fixtures.tracing "first"])
     = Panicked NilPointerDereference.
Proof.
  split.
  - destruct (proj2 (proj2 (Start_setup_outcome fixtures.not_found fixtures.fresh))
                fixtures.cfg0 [] eq_refl eq_refl)
      as (s1 & live & H1 & Hsrv & Haddr & Ht & _).
    exists s1, live. split; [exact H1|]. split; [exact Hsrv|]. split; [|exact Ht].
    rewrite Haddr. reflexivity.
  - apply (proj1 (Start_setup_outcome fixtures.not_found
                    (server.New None "logger" [fixtures.tracing "first"]))).
    reflexivity.
Defined.

(** * Further properties of package server: Start, Stop and the goroutines *)

Section SystemProperties.

Import server.

Context {W Logger : Type}.
Variable mux_unmatched : @ServeMux W -> @HttpHandler W.

Local Abbreviation Server := (@server.Server W Logger).
Local Abbreviation Effect := (@server.Effect W Logger).
Local Abbreviation System := (@server.System W Logger).
Local Abbreviation step := (@server.step W Logger mux_unmatched).
Local Abbreviation run := (@server.run W Logger mux_unmatched).

Lemma shutdown_sequences_app (e1 e2 : list Effect) :
  shutdown_sequences (e1 ++ e2) = (shutdown_sequences e1 + shutdown_sequences e2)%nat.
Proof.
  induction e1 as [|e e1 IH]; [reflexivity|].
  destruct e; simpl; rewrite IH; reflexivity.
Qed.

(** The first call of [Stop]: the guard is set, the shutdown sequence runs
    once, and on a started server the call returns and everything it does
    besides the shutdown request and the cancel is a log call. *)
Lemma Stop_first_time (env : Env) (s : Server) :
  closer s = false ->
  exists r eff,
    Stop env s = (r, closer_done s, eff)
    /\ shutdown_sequences eff = 1%nat
    /\ (is_Some (srv s) -> r = Returned tt).
Proof.
  intros Hc. unfold Stop, Stop_body, http_Server_Shutdown. rewrite Hc.
  destruct (srv s) as [live|].
  - destruct (ShutdownAnswer env); eexists; eexists; repeat split; reflexivity.
  - eexists. eexists. repeat split; try reflexivity.
    intros [x Hx]. discriminate Hx.
Qed.

(** What a call of [Stop] does to the system. *)
Lemma call_Stop_spec (env : Env) (pc : MainPc) (sys : System) :
  ctx_done (call_Stop env pc sys) = ctx_done sys
  /\ accept (call_Stop env pc sys) = accept sys
  /\ srv (server (call_Stop env pc sys)) = srv (server sys)
  /\ closer (server (call_Stop env pc sys)) = true
  /\ (closer (server sys) = true ->
      server (call_Stop env pc sys) = server sys
      /\ effects (call_Stop env pc sys) = effects sys
      /\ main (call_Stop env pc sys) = pc
      /\ crashed (call_Stop env pc sys) = false)
  /\ (closer (server sys) = false ->
      shutdown_sequences (effects (call_Stop env pc sys))
      = S (shutdown_sequences (effects sys))
      /\ (is_Some (srv (server sys)) ->
          main (call_Stop env pc sys) = pc /\ crashed (call_Stop env pc sys) = false)
      /\ (srv (server sys) = None ->
          main (call_Stop env pc sys) = main sys /\ crashed (call_Stop env pc sys) = true)).
Proof.
  unfold call_Stop.
  destruct (closer (server sys)) eqn:Hc.
  - rewrite (Stop_when_done env _ Hc). simpl. rewrite app_nil_r.
    repeat split; auto; discriminate.
  - unfold Stop, Stop_body, http_Server_Shutdown. rewrite Hc.
    destruct (srv (server sys)) as [live|] eqn:Hs.
    + destruct (ShutdownAnswer env); simpl; rewrite ?Hs, shutdown_sequences_app; simpl;
        (split; [reflexivity|]); (split; [reflexivity|]); (split; [reflexivity|]);
        (split; [reflexivity|]); (split; [discriminate|]); intros _;
        (split; [lia|]); (split; [auto|discriminate]).
    + simpl. rewrite ?Hs, shutdown_sequences_app. simpl.
      (split; [reflexivity|]); (split; [reflexivity|]); (split; [reflexivity|]);
        (split; [reflexivity|]); (split; [discriminate|]); intros _;
        (split; [lia|]); (split; [|auto]).
      intros [x Hx]. discriminate Hx.
Qed.

(** The first statement of [Start], when it returns, has set the handle and
    kept the guard. *)
Lemma Start_setup_frame (s s' : Server) :
  Start_setup mux_unmatched s = Returned s' ->
  is_Some (srv s') /\ closer s' = closer s.
Proof.
  unfold Start_setup. destruct (cfg s); [|discriminate].
  destruct (applyMiddlewares mux_unmatched s); [|discriminate].
  intros [= <-]. simpl. eauto.
Qed.

(** A property of the initial state that every step keeps holds along every
    schedule. *)
Lemma run_preserves (P : System -> Prop) :
  (forall l a b, P a -> step l a = Some b -> P b) ->
  forall schedule a b, P a -> run schedule a = Some b -> P b.
Proof.
  intros Hstep schedule. induction schedule as [|l rest IH]; intros a b Ha Hrun.
  - injection Hrun as <-. exact Ha.
  - cbn [server.run] in Hrun. destruct (step l a) as [mid|] eqn:E; [|discriminate].
    eapply IH; [|exact Hrun]. eapply Hstep; eauto.
Qed.

(** Case analysis on an enabled step. *)
Ltac step_cases H :=
  unfold server.step in H;
  destruct (crashed _) eqn:?; [discriminate H|];
  match type of H with
  | match ?l with _ => _ end = _ => destruct l as [?env|?err| |?env]
  end;
  [ destruct (main _) eqn:?;
    [ match type of H with
      | context [Start_setup _ ?s] =>
          let E := fresh "Esetup" in
          destruct (Start_setup _ s) as [?s'|?v] eqn:E;
          [ destruct (Start_setup_frame _ _ E) as (?Hhandle & ?Hguard) | ]
      end
    | destruct (ctx_done _) eqn:?; [|discriminate H]
    | discriminate H ]
  | destruct (accept _) eqn:?; try discriminate H;
    match type of H with
    | context [match srv ?x with _ => _ end] => destruct (srv x) eqn:?
    end
  | | ];
  injection H as <-.

(** Along every schedule: once [Start] has run its first statement the
    handle is set and no goroutine has panicked. *)
Lemma run_started (s : Server) (schedule : list Label) (sys : System) :
  run schedule (boot s) = Some sys ->
  main sys <> MainEntry ->
  crashed sys = false /\ is_Some (srv (server sys)) /\ accept sys <> AcceptUnborn.
Proof.
  intros Hrun.
  apply (run_preserves
           (fun x => main x <> MainEntry ->
                     crashed x = false /\ is_Some (srv (server x)) /\ accept x <> AcceptUnborn)
           ) with (schedule := schedule) (a := boot s); [|now intros H|exact Hrun].
  clear. intros l a b Ha Hstep. step_cases Hstep; simpl.
  - intros _. repeat split; auto; discriminate.
  - intros Hm. congruence.
  - intros _. destruct Ha as (_ & Hs & Hacc); [congruence|].
    destruct (call_Stop_spec env MainReturned a) as (_ & Eacc & Es & _ & Hdone & Hfirst).
    rewrite Eacc, Es. repeat split; auto.
    destruct (closer (server a)) eqn:Ec.
    + now apply Hdone.
    + destruct Hfirst as (_ & Hok & _); [reflexivity|]. now apply Hok.
  - intros Hm. destruct Ha as (_ & Hs & _); [exact Hm|]. repeat split; auto; discriminate.
  - intros Hm. destruct Ha as (_ & [x Hx] & _); [exact Hm|]. congruence.
  - intros Hm. destruct Ha as (_ & Hs & _); [exact Hm|]. repeat split; auto; discriminate.
  - intros Hm. destruct Ha as (_ & [x Hx] & _); [exact Hm|]. congruence.
  - exact Ha.
  - destruct (call_Stop_spec env (main a) a) as (_ & Eacc & Es & _ & Hdone & Hfirst).
    rewrite Eacc, Es.
    destruct (closer (server a)) eqn:Ec.
    + destruct Hdone as (_ & _ & Em & Ecr); [reflexivity|]. rewrite Em, Ecr.
      intros Hm. destruct (Ha Hm) as (_ & ? & ?). auto.
    + destruct Hfirst as (_ & Hok & Hnil); [reflexivity|].
      destruct (srv (server a)) as [live|] eqn:Esrv.
      * destruct Hok as (Em & Ecr); [eauto|]. rewrite Em, Ecr.
        intros Hm. destruct (Ha Hm) as (_ & ? & ?). auto.
      * destruct Hnil as (Em & _); [reflexivity|]. rewrite Em.
        intros Hm. destruct (Ha Hm) as (_ & [x Hx] & _). discriminate Hx.
Qed.

(** Along every schedule: the guard, once set, stays set; the shutdown
    sequence has run once if the guard was set along the way and never
    otherwise; and [Start] has returned only with the guard set. *)
Lemma run_guard (s : Server) (schedule : list Label) (sys : System) :
  run schedule (boot s) = Some sys ->
  (closer s = true -> closer (server sys) = true)
  /\ shutdown_sequences (effects sys)
     = (if closer (server sys) then if closer s then 0 else 1 else 0)%nat
  /\ (main sys = MainReturned -> closer (server sys) = true).
Proof.
  intros Hrun.
  apply (run_preserves
           (fun x => (closer s = true -> closer (server x) = true)
                     /\ shutdown_sequences (effects x)
                        = (if closer (server x) then if closer s then 0 else 1 else 0)%nat
                     /\ (main x = MainReturned -> closer (server x) = true)))
    with (schedule := schedule) (a := boot s); [| |exact Hrun].
  - clear. intros l a b (Hmono & Hcount & Hret) Hstep.
    assert (forall env pc,
               (closer s = true -> closer (server (call_Stop env pc a)) = true)
               /\ shutdown_sequences (effects (call_Stop env pc a))
                  = (if closer (server (call_Stop env pc a))
                     then if closer s then 0 else 1 else 0)%nat
               /\ (main (call_Stop env pc a) = MainReturned ->
                   closer (server (call_Stop env pc a)) = true)) as Hstop.
    { intros env pc.
      destruct (call_Stop_spec env pc a) as (_ & _ & _ & Hset & Hdone & Hfirst).
      rewrite Hset. split; [auto|]. split; [|auto].
      destruct (closer (server a)) eqn:Ec.
      - destruct Hdone as (_ & -> & _); [reflexivity|]. exact Hcount.
      - destruct Hfirst as (-> & _); [reflexivity|]. rewrite Hcount.
        destruct (closer s); [|reflexivity]. now specialize (Hmono eq_refl). }
    step_cases Hstep; simpl; auto.
    + rewrite Hguard. repeat split; auto. discriminate.
    + repeat split; auto. intros Hm. congruence.
    + rewrite shutdown_sequences_app. simpl. rewrite Nat.add_0_r. auto.
    + destruct (errors_Is err (Some ErrServerClosed));
        rewrite ?app_nil_r, ?shutdown_sequences_app; simpl; rewrite ?Nat.add_0_r; auto.
  - simpl. destruct (closer s); repeat split; auto; discriminate.
Qed.

(** X8.  On a server whose guard has not fired, however [Start], the accept
    loop, the cancellation and any number of [Stop] calls from other
    goroutines interleave: the shutdown sequence has run exactly once when
    the guard is set and not at all before, and it has run exactly once
    when [Start] has returned. *)
Theorem shutdown_runs_once_over_every_schedule
    (s : Server) (schedule : list Label) (sys : System) :
  closer s = false ->
  run schedule (boot s) = Some sys ->
  shutdown_sequences (effects sys) = (if closer (server sys) then 1 else 0)%nat
  /\ (main sys = MainReturned -> shutdown_sequences (effects sys) = 1%nat).
Proof.
  intros Hs Hrun. destruct (run_guard _ _ _ Hrun) as (_ & Hcount & Hret).
  rewrite Hs in Hcount. split; [exact Hcount|].
  intros Hm. rewrite Hcount, (Hret Hm). reflexivity.
Qed.

(** X9.  A server whose guard has fired is never shut down again: along
    every schedule from it, also one in which [Start] runs and returns, the
    network server is never asked to shut down; all that is done to the
    outside are log calls, and the guard stays set. *)
Theorem spent_guard_never_shuts_down
    (s : Server) (schedule : list Label) (sys : System) :
  closer s = true ->
  run schedule (boot s) = Some sys ->
  closer (server sys) = true
  /\ shutdown_sequences (effects sys) = 0%nat
  /\ Forall (fun e => exists l lvl msg kv, e = Log l lvl msg kv) (effects sys).
Proof.
  intros Hs Hrun. destruct (run_guard _ _ _ Hrun) as (Hmono & Hcount & _).
  rewrite (Hmono Hs), Hs in Hcount. split; [auto|]. split; [exact Hcount|].
  revert Hrun.
  apply (run_preserves
           (fun x => closer (server x) = true
                     /\ Forall (fun e => exists l lvl msg kv, e = Log l lvl msg kv)
                          (effects x)))
    with (schedule := schedule) (a := boot s) (b := sys); [|now split].
  clear. intros l a b (Hc & Hlog) Hstep.
  assert (forall env pc,
             closer (server (call_Stop env pc a)) = true
             /\ Forall (fun e => exists l lvl msg kv, e = Log l lvl msg kv)
                  (effects (call_Stop env pc a))) as Hstop.
  { intros env pc.
    destruct (call_Stop_spec env pc a) as (_ & _ & _ & Hset & Hdone & _).
    destruct (Hdone Hc) as (_ & -> & _). auto. }
  step_cases Hstep; simpl; auto.
  - split; [congruence|exact Hlog].
  - split; [exact Hc|]. apply Forall_app. split; [exact Hlog|].
    repeat constructor. eauto.
  - split; [exact Hc|]. apply Forall_app. split; [exact Hlog|].
    destruct (errors_Is err (Some ErrServerClosed)); repeat constructor. eauto.
Qed.

(** X11.  A waiting [Start] does return when it is cancelled: from every
    state a schedule can reach in which [Start] waits, the cancellation
    followed by one step of [Start] ends with [Start] returned, the guard
    set and no panic, whatever the network server answers and whatever the
    accept loop did before. *)
Theorem Start_returns_after_cancel
    (s : Server) (schedule : list Label) (sys : System) (env : Env) :
  run schedule (boot s) = Some sys ->
  main sys = MainWaiting ->
  exists sys',
    run [StepCancel; StepMain env] sys = Some sys'
    /\ main sys' = MainReturned /\ crashed sys' = false
    /\ closer (server sys') = true /\ ctx_done sys' = true.
Proof.
  intros Hrun Hw.
  destruct (run_started _ _ _ Hrun) as (Hcr & Hsrv & _); [rewrite Hw; discriminate|].
  cbn [server.run]. unfold server.step at 1. rewrite Hcr.
  unfold server.step. simpl. rewrite Hw.
  eexists. split; [reflexivity|].
  match goal with |- context [call_Stop env MainReturned ?c] =>
    destruct (call_Stop_spec env MainReturned c) as (Hd & _ & _ & Hset & Hdone & Hfirst);
    simpl in *
  end.
  rewrite Hset, Hd. 
  destruct (closer (server sys)) eqn:Ec.
  - destruct Hdone as (_ & _ & -> & ->); auto.
  - destruct Hfirst as (_ & Hok & _); [reflexivity|].
    destruct (Hok Hsrv) as (-> & ->). auto.
Qed.

End SystemProperties.

(** X8 on the schedule in which the listener fails, then with a second
    call of [Stop] from outside at its end. *)
Lemma shutdown_runs_once_over_every_schedule_witness :
  exists sys,
    server.run fixtures.not_found (fixtures.listener_fails ++ [server.StepStop fixtures.noon_slow])
      (server.boot fixtures.fresh) = Some sys
    /\ server.main sys = server.MainReturned
    /\ server.shutdown_sequences (server.effects sys) = 1%nat.
Proof.
  eexists. split; [reflexivity|]. split; [reflexivity|].
  apply (shutdown_runs_once_over_every_schedule fixtures.not_found fixtures.fresh
           (fixtures.listener_fails ++ [server.StepStop fixtures.noon_slow]));
    reflexivity.
Defined.

(** X9 on a server that was stopped before it was started: on the schedule
    in which the listener fails [Start] returns, and nothing but the two log
    lines of the accept loop has happened. *)
Lemma spent_guard_never_shuts_down_witness :
  exists sys,
    server.run fixtures.not_found fixtures.listener_fails
      (server.boot (server.closer_done fixtures.fresh)) = Some sys
    /\ server.main sys = server.MainReturned
    /\ length (server.effects sys) = 2%nat
    /\ Forall (fun e => exists l lvl msg kv, e = server.Log l lvl msg kv) (server.effects sys).
Proof.
  eexists. split; [reflexivity|]. split; [reflexivity|]. split; [reflexivity|].
  apply (spent_guard_never_shuts_down fixtures.not_found
           (server.closer_done fixtures.fresh) fixtures.listener_fails);
    reflexivity.
Defined.

(** X11 from the same state, with a network server that does not drain in
    time. *)
Lemma Start_returns_after_cancel_witness :
  server.run fixtures.not_found (take 3 fixtures.listener_fails)
    (server.boot fixtures.fresh) = Some fixtures.waiting
  /\ exists sys',
       server.run fixtures.not_found [server.StepCancel; server.StepMain fixtures.noon_slow]
         fixtures.waiting = Some sys'
       /\ server.main sys' = server.MainReturned /\ server.crashed sys' = false
       /\ server.closer (server.server sys') = true /\ server.ctx_done sys' = true.
Proof.
  split; [reflexivity|].
  apply (Start_returns_after_cancel fixtures.not_found fixtures.fresh
           (take 3 fixtures.listener_fails) fixtures.waiting fixtures.noon_slow);
    reflexivity.
Defined.

(** * Further properties of package worker *)

Section DefaultsProperties.

Import worker.

Context {pond_ResizingStrategy : Type}.
Variables pond_Eager pond_Lazy pond_Balanced : pond_ResizingStrategy.

(** X12.  The default configuration is usable as it is: the strategy it
    names resolves, to pond's balanced strategy, so [ResizerFromString] does
    not panic on it; its worker bounds are ordered and not negative, and its
    queue bound is positive. *)
Theorem DefaultPoolConfig_resolves :
  ResizerFromString pond_Eager pond_Lazy pond_Balanced (ResizingStrategy DefaultPoolConfig)
  = Returned pond_Balanced
  /\ 0 <= MinWorkers DefaultPoolConfig <= MaxWorkers DefaultPoolConfig
  /\ 0 < MaxQueuedJobs DefaultPoolConfig.
Proof. split; [reflexivity|]. simpl. lia. Qed.

End DefaultsProperties.
